(** * Engine interfaces of SQLAlchemy (lib/sqlalchemy/engine/interfaces.py)

  A shallow embedding of the base [Dialect] hooks, the reflected
  [TypedDict] shapes, [CreateEnginePlugin], [ExceptionContext] and
  [AdaptedConnection], with the properties of their default
  behaviour. *)

From Stdlib Require Import ZArith.
From stdpp Require Import gmap strings list fin_maps.

Set Warnings "-register-all".

Open Scope string_scope.

(** ** The connection URL *)

(** Modelled from the spec: class [URL] (engine/url.py) is not part of
    these sources.  The spec has it "opaque to this layer beyond
    exposing a query-parameter mapping"; since 1.4 it is immutable, so it
    is a plain value here. *)
Record URL := MkURL {
  drivername : string;
  database : option string;
  query : gmap string (list string)
}.

(** Modelled from the spec: [URL.difference_update_query] (engine/url.py)
    is not part of these sources.  The docstrings of [CreateEnginePlugin]
    use it "to remove these arguments": the named query parameters go,
    one after the other, and nothing else changes. *)
Definition difference_update_query (names : list string) (u : URL) : URL :=
  MkURL (drivername u) (database u) (foldr delete (query u) names).

(** ** Python values, objects and effects *)

Module Py.

(** Exceptions the interface layer can surface.  [DriverError] stands
    for any exception raised by a driver or by user code. *)
Inductive exn :=
| NotImplementedError
| AttributeError (attr : string)
| DriverError (msg : string).

Inductive outcome (A : Type) :=
| Return (v : A)
| Raise (e : exn).
Arguments Return {A} v.
Arguments Raise {A} e.

(** Object identity. *)
Definition loc := positive.

Inductive pyval :=
| PyNone
| PyBool (b : bool)
| PyInt (z : Z)
| PyStr (s : string)
| PyRef (l : loc)
| PyURL (u : URL)
| PyList (xs : list pyval)
| PyDict (kvs : list (string * pyval)).

(** A heap object: an instance falls back to the namespace of its
    class for attributes it has not set itself; a dict holds its
    entries. *)
Inductive object :=
| PyInstance (class_ns : gmap string pyval) (inst_dict : gmap string pyval)
| PyDictObj (entries : gmap string pyval).

(** One call of a DBAPI module's [connect] with positional and keyword arguments. *)
Record connect_call := ConnectCall {
  call_cargs : list pyval;
  call_cparams : list (string * pyval)
}.

Record world := World {
  heap : gmap loc object;
  dbapi_log : list connect_call
}.

(** Computations: state passing over [world], ending in a value or an
    exception. *)
Definition M (A : Type) : Type := world -> outcome A * world.

#[global] Instance M_ret : MRet M := fun A a w => (Return a, w).
#[global] Instance M_bind : MBind M := fun A B k m w =>
  match m w with
  | (Return a, w') => k a w'
  | (Raise e, w') => (Raise e, w')
  end.

Definition raise {A} (e : exn) : M A := fun w => (Raise e, w).

(** [obj.name]: the instance dictionary first, then the class. *)
Definition getattr (l : loc) (name : string) : M pyval := fun w =>
  match heap w !! l with
  | Some (PyInstance ns d) =>
      match d !! name with
      | Some v => (Return v, w)
      | None =>
          match ns !! name with
          | Some v => (Return v, w)
          | None => (Raise (AttributeError name), w)
          end
      end
  | _ => (Raise (AttributeError name), w)
  end.

(** [obj.name = v]: writes the instance dictionary only. *)
Definition setattr (l : loc) (name : string) (v : pyval) : M unit := fun w =>
  match heap w !! l with
  | Some (PyInstance ns d) =>
      (Return tt,
       World (<[l := PyInstance ns (<[name := v]> d)]> (heap w)) (dbapi_log w))
  | _ => (Raise (AttributeError name), w)
  end.

(** [cls()] for a class without [__init__]: a fresh object with an
    empty instance dictionary. *)
Definition new_instance (ns : gmap string pyval) : M loc := fun w =>
  let l := fresh (dom (heap w)) in
  (Return l, World (<[l := PyInstance ns ∅]> (heap w)) (dbapi_log w)).

End Py.
Import Py.

(** ** Reflected structures (TypedDict declarations) *)

Module Reflected.

(** The annotation forms used by the declarations below. *)
Inductive annot :=
| T_str
| T_bool
| T_Any
| T_Optional (a : annot)
| T_List (a : annot)
| T_Dict_str (a : annot).

Record field := Field {
  f_name : string;
  f_required : bool;      (* [false] for [NotRequired[...]] *)
  f_type : annot
}.

Definition typed_dict := list field.

(** class ReflectedTableComment(TypedDict): text: str *)
Definition ReflectedTableComment : typed_dict :=
  [ Field "text" true T_str ].

(** class ReflectedCheckConstraint(TypedDict):
      name: Optional[str]; sqltext: str;
      dialect_options: NotRequired[Dict[str, Any]] *)
Definition ReflectedCheckConstraint : typed_dict :=
  [ Field "name" true (T_Optional T_str);
    Field "sqltext" true T_str;
    Field "dialect_options" false (T_Dict_str T_Any) ].

(** class ReflectedUniqueConstraint(TypedDict):
      name: Optional[str]; column_names: List[str];
      dialect_options: NotRequired[Dict[str, Any]] *)
Definition ReflectedUniqueConstraint : typed_dict :=
  [ Field "name" true (T_Optional T_str);
    Field "column_names" true (T_List T_str);
    Field "dialect_options" false (T_Dict_str T_Any) ].

(** Does a value inhabit an annotation? *)
Fixpoint admits (a : annot) (v : pyval) {struct a} : bool :=
  match a, v with
  | T_str, PyStr _ => true
  | T_bool, PyBool _ => true
  | T_Any, _ => true
  | T_Optional _, PyNone => true
  | T_Optional a', _ => admits a' v
  | T_List a', PyList xs => forallb (admits a') xs
  | T_Dict_str a', PyDict kvs => forallb (fun kv => admits a' kv.2) kvs
  | _, _ => false
  end.

Definition lookup_key (k : string) (kvs : list (string * pyval)) : option pyval :=
  snd <$> find (fun kv => String.eqb kv.1 k) kvs.

(** A declared field is satisfied by a dict literal when its value is
    admitted, or when it is absent and not required. *)
Definition field_ok (kvs : list (string * pyval)) (f : field) : bool :=
  match lookup_key (f_name f) kvs with
  | Some v => admits (f_type f) v
  | None => negb (f_required f)
  end.

Definition declared (td : typed_dict) (k : string) : bool :=
  existsb (fun f => String.eqb (f_name f) k) td.

(** A value conforms to a TypedDict when it is a dict whose keys are
    all declared and whose declared fields are all satisfied. *)
Definition conforms (td : typed_dict) (v : pyval) : bool :=
  match v with
  | PyDict kvs =>
      forallb (fun kv => declared td kv.1) kvs && forallb (field_ok kvs) td
  | _ => false
  end.

End Reflected.

(** ** Cooperative awaiting *)

Module Concurrency.

(** Modelled from the spec: awaitables come from the asynchronous driver,
    which is not part of these sources.  An awaitable is a coroutine that
    suspends finitely often before it finishes with a value or with an
    exception. *)
Inductive awaitable :=
| Done (r : outcome pyval)
| Suspend (k : awaitable).

(** What an awaitable resolves to, told step by step. *)
Inductive resolves : awaitable -> outcome pyval -> Prop :=
| resolves_done r : resolves (Done r) r
| resolves_suspend k r : resolves k r -> resolves (Suspend k) r.

Fixpoint drive (a : awaitable) : outcome pyval :=
  match a with
  | Done r => r
  | Suspend k => drive k
  end.

(** Modelled from the spec: [await_only] (util/concurrency.py) is not
    part of these sources.  The spec has [run_async] block "the calling
    (cooperative) context until that awaitable resolves, returning its
    result", a failure of the awaitable surfacing "as a
    synchronous-style exception". *)
Definition await_only (a : awaitable) : M pyval := fun w => (drive a, w).

End Concurrency.

(** ** class Dialect *)

Module Dialect.

Definition kwargs := list (string * pyval).

(** The callable [on_connect] may hand back: it receives the DBAPI
    connection. *)
Definition initializer := pyval -> M unit.

(** A DBAPI module, as far as [connect] is concerned. *)
Record DBAPI := MkDBAPI {
  dbapi_connect : list pyval -> kwargs -> M pyval
}.

(** A dialect class.  [own_get_dialect_cls] is the bound classmethod
    the class resolves [cls.get_dialect_cls] to when it (or a class
    between it and [Dialect]) overrides the hook. *)
Inductive cls :=
| Class (cls_name : string) (own_get_dialect_cls : option (URL -> M cls)).

Definition cls_name (c : cls) : string :=
  match c with Class n _ => n end.

Definition own_get_dialect_cls (c : cls) : option (URL -> M cls) :=
  match c with Class _ o => o end.

(** A dialect instance.  [dbapi] is the DBAPI module a concrete dialect
    sets on itself; the base class declares none.  [own_on_connect] is
    the bound method [self.on_connect] resolves to when the instance's
    class overrides the hook. *)
Record t := MkDialect {
  class_of : cls;
  dbapi : option DBAPI;
  own_on_connect : option (M (option initializer))
}.

(** *** Reflection hooks *)

Definition get_columns (self : t) (connection : pyval) (table_name : string)
    (schema : option string) (kw : kwargs) : M pyval :=
  raise NotImplementedError.

Definition get_pk_constraint (self : t) (connection : pyval) (table_name : string)
    (schema : option string) (kw : kwargs) : M pyval :=
  raise NotImplementedError.

Definition get_foreign_keys (self : t) (connection : pyval) (table_name : string)
    (schema : option string) (kw : kwargs) : M pyval :=
  raise NotImplementedError.

Definition get_table_names (self : t) (connection : pyval)
    (schema : option string) (kw : kwargs) : M pyval :=
  raise NotImplementedError.

Definition get_temp_table_names (self : t) (connection : pyval)
    (schema : option string) (kw : kwargs) : M pyval :=
  raise NotImplementedError.

Definition get_view_names (self : t) (connection : pyval)
    (schema : option string) (kw : kwargs) : M pyval :=
  raise NotImplementedError.

Definition get_sequence_names (self : t) (connection : pyval)
    (schema : option string) (kw : kwargs) : M pyval :=
  raise NotImplementedError.

Definition get_temp_view_names (self : t) (connection : pyval)
    (schema : option string) (kw : kwargs) : M pyval :=
  raise NotImplementedError.

Definition get_view_definition (self : t) (connection : pyval) (view_name : string)
    (schema : option string) (kw : kwargs) : M pyval :=
  raise NotImplementedError.

Definition get_indexes (self : t) (connection : pyval) (table_name : string)
    (schema : option string) (kw : kwargs) : M pyval :=
  raise NotImplementedError.

Definition get_unique_constraints (self : t) (connection : pyval)
    (table_name : string) (schema : option string) (kw : kwargs) : M pyval :=
  raise NotImplementedError.

Definition get_check_constraints (self : t) (connection : pyval)
    (table_name : string) (schema : option string) (kw : kwargs) : M pyval :=
  raise NotImplementedError.

(** The body is the docstring alone: the call falls off the end and
    returns [None]. *)
Definition get_table_options (self : t) (connection : pyval) (table_name : string)
    (schema : option string) (kw : kwargs) : M pyval :=
  mret PyNone.

Definition get_table_comment (self : t) (connection : pyval) (table_name : string)
    (schema : option string) (kw : kwargs) : M pyval :=
  raise NotImplementedError.

Definition has_table (self : t) (connection : pyval) (table_name : string)
    (schema : option string) (kw : kwargs) : M pyval :=
  raise NotImplementedError.

Definition has_index (self : t) (connection : pyval) (table_name : string)
    (index_name : string) (schema : option string) : M pyval :=
  raise NotImplementedError.

Definition has_sequence (self : t) (connection : pyval) (sequence_name : string)
    (schema : option string) (kw : kwargs) : M pyval :=
  raise NotImplementedError.

(** *** Two-phase transactions *)

Definition create_xid (self : t) : M pyval :=
  raise NotImplementedError.

Definition do_begin_twophase (self : t) (connection xid : pyval) : M pyval :=
  raise NotImplementedError.

Definition do_prepare_twophase (self : t) (connection xid : pyval) : M pyval :=
  raise NotImplementedError.

Definition do_rollback_twophase (self : t) (connection xid : pyval)
    (is_prepared recover : bool) : M pyval :=
  raise NotImplementedError.

Definition do_commit_twophase (self : t) (connection xid : pyval)
    (is_prepared recover : bool) : M pyval :=
  raise NotImplementedError.

Definition do_recover_twophase (self : t) (connection : pyval) : M pyval :=
  raise NotImplementedError.

(** *** Connecting *)

(** The body is the docstring alone. *)
Definition connect (self : t) (cargs : list pyval) (cparams : kwargs) : M pyval :=
  mret PyNone.

(** What the docstring of [connect] gives as "the default
    implementation of this method", the one a concrete dialect inherits
    from [DefaultDialect]:
    [return self.dbapi.connect] applied to [cargs] and [cparams]. *)
Definition connect_documented (self : t) (cargs : list pyval) (cparams : kwargs)
    : M pyval :=
  match dbapi self with
  | Some m => dbapi_connect m cargs cparams
  | None => raise (AttributeError "dbapi")
  end.

Definition on_connect (self : t) : M (option initializer) :=
  mret None.

(** Attribute lookup [self.on_connect]. *)
Definition bound_on_connect (self : t) : M (option initializer) :=
  match own_on_connect self with
  | Some m => m
  | None => on_connect self
  end.

Definition on_connect_url (self : t) (url : URL) : M (option initializer) :=
  bound_on_connect self.

(** *** Class-level hooks *)

Definition get_dialect_cls (c : cls) (url : URL) : M cls :=
  mret c.

(** Attribute lookup [cls.get_dialect_cls]. *)
Definition bound_get_dialect_cls (c : cls) : URL -> M cls :=
  match own_get_dialect_cls c with
  | Some f => f
  | None => get_dialect_cls c
  end.

Definition get_async_dialect_cls (c : cls) (url : URL) : M cls :=
  bound_get_dialect_cls c url.

Definition load_provisioning (c : cls) : M pyval :=
  mret PyNone.

Definition engine_created (c : cls) (engine : pyval) : M pyval :=
  mret PyNone.

(** The class [Dialect] itself, and an instance of it. *)
Definition Dialect : cls := Class "Dialect" None.

Definition base (d : option DBAPI) : t := MkDialect Dialect d None.

(** *** The reflection contract, hook by hook *)

Inductive reflection_hook :=
| Get_columns | Get_pk_constraint | Get_foreign_keys
| Get_table_names | Get_temp_table_names | Get_view_names
| Get_sequence_names | Get_temp_view_names | Get_view_definition
| Get_indexes | Get_unique_constraints | Get_check_constraints
| Get_table_options | Get_table_comment
| Has_table | Has_index | Has_sequence.

Definition reflection_hooks : list reflection_hook :=
  [ Get_columns; Get_pk_constraint; Get_foreign_keys;
    Get_table_names; Get_temp_table_names; Get_view_names;
    Get_sequence_names; Get_temp_view_names; Get_view_definition;
    Get_indexes; Get_unique_constraints; Get_check_constraints;
    Get_table_options; Get_table_comment;
    Has_table; Has_index; Has_sequence ].

(** Calling a hook with a connection, a target name and an optional
    schema; each hook takes the arguments its signature has
    ([index_name] is for [has_index] alone). *)
Definition call_hook (h : reflection_hook) (self : t) (connection : pyval)
    (name index_name : string) (schema : option string) (kw : kwargs) : M pyval :=
  match h with
  | Get_columns => get_columns self connection name schema kw
  | Get_pk_constraint => get_pk_constraint self connection name schema kw
  | Get_foreign_keys => get_foreign_keys self connection name schema kw
  | Get_table_names => get_table_names self connection schema kw
  | Get_temp_table_names => get_temp_table_names self connection schema kw
  | Get_view_names => get_view_names self connection schema kw
  | Get_sequence_names => get_sequence_names self connection schema kw
  | Get_temp_view_names => get_temp_view_names self connection schema kw
  | Get_view_definition => get_view_definition self connection name schema kw
  | Get_indexes => get_indexes self connection name schema kw
  | Get_unique_constraints => get_unique_constraints self connection name schema kw
  | Get_check_constraints => get_check_constraints self connection name schema kw
  | Get_table_options => get_table_options self connection name schema kw
  | Get_table_comment => get_table_comment self connection name schema kw
  | Has_table => has_table self connection name schema kw
  | Has_index => has_index self connection name index_name schema
  | Has_sequence => has_sequence self connection name schema kw
  end.

Definition is_get_table_options (h : reflection_hook) : bool :=
  match h with Get_table_options => true | _ => false end.

(** A DBAPI module whose [connect] records the call and hands back the
    connection [conn]. *)
Definition recording_dbapi (conn : pyval) : DBAPI :=
  MkDBAPI (fun cargs cparams w =>
    (Return conn,
     World (heap w) (dbapi_log w ++ [ConnectCall cargs cparams]))).

End Dialect.

(** ** class CreateEnginePlugin *)

Module CreateEnginePlugin.

(** The class body holds methods only. *)
Definition class_ns : gmap string pyval := ∅.

(** [kwargs] is the caller's dict, passed by reference. *)
Definition __init__ (self : loc) (url : URL) (kwargs : loc) : M unit :=
  setattr self "url" (PyURL url).

(** [CreateEnginePlugin(url, kwargs)]. *)
Definition new (url : URL) (kwargs : loc) : M loc :=
  self ← new_instance class_ns;
  _ ← __init__ self url kwargs;
  mret self.

(** The body is the docstring alone. *)
Definition update_url (self : loc) (url : URL) : M pyval :=
  mret PyNone.

(** The override the class docstring shows for a plugin that owns the
    query parameters [names]:
    [return url.difference_update_query(names)]. *)
Definition update_url_documented (names : list string) (self : loc) (url : URL)
    : M pyval :=
  mret (PyURL (difference_update_query names url)).

Definition handle_dialect_kwargs (self : loc) (dialect_cls : Dialect.cls)
    (dialect_args : loc) : M pyval :=
  mret PyNone.

Definition handle_pool_kwargs (self : loc) (pool_cls : pyval) (pool_args : loc)
    : M pyval :=
  mret PyNone.

Definition engine_created (self : loc) (engine : pyval) : M pyval :=
  mret PyNone.

End CreateEnginePlugin.

(** ** class ExceptionContext *)

Module ExceptionContext.

(** The class attributes and their defaults.  There is no [__init__]. *)
Definition class_ns : gmap string pyval :=
  list_to_map
    [ ("connection", PyNone);
      ("engine", PyNone);
      ("cursor", PyNone);
      ("statement", PyNone);
      ("parameters", PyNone);
      ("original_exception", PyNone);
      ("sqlalchemy_exception", PyNone);
      ("chained_exception", PyNone);
      ("execution_context", PyNone);
      ("is_disconnect", PyNone);
      ("invalidate_pool_on_disconnect", PyBool true) ].

(** [ExceptionContext()]. *)
Definition new : M loc := new_instance class_ns.

End ExceptionContext.

(** ** class AdaptedConnection *)

Module AdaptedConnection.

Import Concurrency.

(** [__slots__ = ("_connection",)]: the slot is empty until a subclass
    constructor fills it. *)
Record t := MkAdapted {
  _connection : option pyval
}.

(** Reading [self._connection]. *)
Definition read_connection (self : t) : M pyval :=
  match _connection self with
  | Some c => mret c
  | None => raise (AttributeError "_connection")
  end.

Definition driver_connection (self : t) : M pyval :=
  read_connection self.

Definition run_async (self : t) (fn : pyval -> M awaitable) : M pyval :=
  c ← read_connection self;
  aw ← fn c;
  await_only aw.

End AdaptedConnection.

(** ** Further declarations of the module *)

(** class BindTyping(Enum): NONE = 1, SETINPUTSIZES = 2, RENDER_CASTS = 3 *)
Module BindTyping.

Inductive t := NONE | SETINPUTSIZES | RENDER_CASTS.



End BindTyping.

Module ReflectedConstraints.

Import Reflected.

(** class ReflectedPrimaryKeyConstraint(TypedDict):
      name: Optional[str]; constrained_columns: List[str];
      dialect_options: NotRequired[Dict[str, Any]] *)
Definition ReflectedPrimaryKeyConstraint : typed_dict :=
  [ Field "name" true (T_Optional T_str);
    Field "constrained_columns" true (T_List T_str);
    Field "dialect_options" false (T_Dict_str T_Any) ].

(** class ReflectedForeignKeyConstraint(TypedDict):
      name: Optional[str]; constrained_columns: List[str];
      referred_schema: Optional[str]; referred_table: str;
      referred_columns: List[str];
      dialect_options: NotRequired[Dict[str, Any]] *)
Definition ReflectedForeignKeyConstraint : typed_dict :=
  [ Field "name" true (T_Optional T_str);
    Field "constrained_columns" true (T_List T_str);
    Field "referred_schema" true (T_Optional T_str);
    Field "referred_table" true T_str;
    Field "referred_columns" true (T_List T_str);
    Field "dialect_options" false (T_Dict_str T_Any) ].

(** Is the value a list of strings? *)
Definition is_str_list (v : pyval) : bool :=
  match v with
  | PyList xs => forallb (fun x => match x with PyStr _ => true | _ => false end) xs
  | _ => false
  end.

(** The four constraint structures. *)
Definition constraint_types : list typed_dict :=
  [ ReflectedCheckConstraint; ReflectedUniqueConstraint;
    ReflectedPrimaryKeyConstraint; ReflectedForeignKeyConstraint ].

End ReflectedConstraints.

(** ** class Dialect: the remaining hooks *)

Module DialectHooks.

Import Dialect.

Definition create_connect_args (self : Dialect.t) (url : URL) : M pyval :=
  raise NotImplementedError.

Definition type_descriptor (c : cls) (typeobj : pyval) : M pyval :=
  raise NotImplementedError.

(** The body is [pass]. *)
Definition initialize (self : Dialect.t) (connection : pyval) : M pyval :=
  mret PyNone.

Definition normalize_name (self : Dialect.t) (name : string) : M pyval :=
  raise NotImplementedError.

Definition denormalize_name (self : Dialect.t) (name : string) : M pyval :=
  raise NotImplementedError.

Definition _get_server_version_info (self : Dialect.t) (connection : pyval)
    : M pyval :=
  raise NotImplementedError.

Definition _get_default_schema_name (self : Dialect.t) (connection : pyval)
    : M pyval :=
  raise NotImplementedError.

Definition do_begin (self : Dialect.t) (dbapi_connection : pyval) : M pyval :=
  raise NotImplementedError.

Definition do_rollback (self : Dialect.t) (dbapi_connection : pyval) : M pyval :=
  raise NotImplementedError.

Definition do_commit (self : Dialect.t) (dbapi_connection : pyval) : M pyval :=
  raise NotImplementedError.

Definition do_close (self : Dialect.t) (dbapi_connection : pyval) : M pyval :=
  raise NotImplementedError.

Definition do_set_input_sizes (self : Dialect.t) (cursor list_of_tuples context : pyval)
    : M pyval :=
  raise NotImplementedError.

Definition do_savepoint (self : Dialect.t) (connection : pyval) (name : string)
    : M pyval :=
  raise NotImplementedError.

Definition do_rollback_to_savepoint (self : Dialect.t) (connection : pyval)
    (name : string) : M pyval :=
  raise NotImplementedError.

Definition do_release_savepoint (self : Dialect.t) (connection : pyval)
    (name : string) : M pyval :=
  raise NotImplementedError.

Definition do_executemany (self : Dialect.t) (cursor : pyval) (statement : string)
    (parameters : pyval) (context : option pyval) : M pyval :=
  raise NotImplementedError.

Definition do_execute (self : Dialect.t) (cursor : pyval) (statement : string)
    (parameters : pyval) (context : option pyval) : M pyval :=
  raise NotImplementedError.

Definition do_execute_no_params (self : Dialect.t) (cursor : pyval)
    (statement : string) (context : option pyval) : M pyval :=
  raise NotImplementedError.

Definition is_disconnect (self : Dialect.t) (e : pyval) (connection : option pyval)
    (cursor : pyval) : M pyval :=
  raise NotImplementedError.

Definition reset_isolation_level (self : Dialect.t) (dbapi_connection : pyval)
    : M pyval :=
  raise NotImplementedError.

Definition set_isolation_level (self : Dialect.t) (dbapi_connection : pyval)
    (level : string) : M pyval :=
  raise NotImplementedError.

Definition get_isolation_level (self : Dialect.t) (dbapi_connection : pyval)
    : M pyval :=
  raise NotImplementedError.

Definition get_default_isolation_level (self : Dialect.t) (dbapi_conn : pyval)
    : M pyval :=
  raise NotImplementedError.

Definition get_isolation_level_values (self : Dialect.t) (dbapi_conn : pyval)
    : M pyval :=
  raise NotImplementedError.

Definition get_driver_connection (self : Dialect.t) (connection : pyval)
    : M pyval :=
  raise NotImplementedError.

(** The arguments a caller has at hand when it drives a connection. *)
Record call_args := CallArgs {
  a_url : URL;
  a_typeobj : pyval;
  a_connection : pyval;
  a_cursor : pyval;
  a_name : string;
  a_statement : string;
  a_parameters : pyval;
  a_context : option pyval;
  a_exception : pyval;
  a_level : string
}.

Inductive hook :=
| Create_connect_args | Type_descriptor | Initialize
| Normalize_name | Denormalize_name
| Get_server_version_info | Get_default_schema_name
| Do_begin | Do_rollback | Do_commit | Do_close | Do_set_input_sizes
| Do_savepoint | Do_rollback_to_savepoint | Do_release_savepoint
| Do_executemany | Do_execute | Do_execute_no_params | Is_disconnect
| Reset_isolation_level | Set_isolation_level | Get_isolation_level
| Get_default_isolation_level | Get_isolation_level_values
| Get_driver_connection.

(** Each hook with the arguments its signature has. *)
Definition call_hook (h : hook) (self : Dialect.t) (a : call_args) : M pyval :=
  match h with
  | Create_connect_args => create_connect_args self (a_url a)
  | Type_descriptor => type_descriptor (class_of self) (a_typeobj a)
  | Initialize => initialize self (a_connection a)
  | Normalize_name => normalize_name self (a_name a)
  | Denormalize_name => denormalize_name self (a_name a)
  | Get_server_version_info => _get_server_version_info self (a_connection a)
  | Get_default_schema_name => _get_default_schema_name self (a_connection a)
  | Do_begin => do_begin self (a_connection a)
  | Do_rollback => do_rollback self (a_connection a)
  | Do_commit => do_commit self (a_connection a)
  | Do_close => do_close self (a_connection a)
  | Do_set_input_sizes =>
      do_set_input_sizes self (a_cursor a) (a_parameters a)
        (default PyNone (a_context a))
  | Do_savepoint => do_savepoint self (a_connection a) (a_name a)
  | Do_rollback_to_savepoint =>
      do_rollback_to_savepoint self (a_connection a) (a_name a)
  | Do_release_savepoint => do_release_savepoint self (a_connection a) (a_name a)
  | Do_executemany =>
      do_executemany self (a_cursor a) (a_statement a) (a_parameters a) (a_context a)
  | Do_execute =>
      do_execute self (a_cursor a) (a_statement a) (a_parameters a) (a_context a)
  | Do_execute_no_params =>
      do_execute_no_params self (a_cursor a) (a_statement a) (a_context a)
  | Is_disconnect =>
      is_disconnect self (a_exception a) (Some (a_connection a)) (a_cursor a)
  | Reset_isolation_level => reset_isolation_level self (a_connection a)
  | Set_isolation_level => set_isolation_level self (a_connection a) (a_level a)
  | Get_isolation_level => get_isolation_level self (a_connection a)
  | Get_default_isolation_level => get_default_isolation_level self (a_connection a)
  | Get_isolation_level_values => get_isolation_level_values self (a_connection a)
  | Get_driver_connection => get_driver_connection self (a_connection a)
  end.

Definition is_initialize (h : hook) : bool :=
  match h with Initialize => true | _ => false end.

(** Calling hooks one after the other, as a caller that expects each
    to return would: the first exception ends the run. *)
Fixpoint call_hooks (hs : list hook) (self : Dialect.t) (a : call_args)
    : M (list pyval) :=
  match hs with
  | [] => mret []
  | h :: hs' =>
      v ← call_hook h self a;
      vs ← call_hooks hs' self a;
      mret (v :: vs)
  end.

End DialectHooks.

(** ** class ExecutionContext *)

Module ExecutionContext.

Definition create_cursor (self : loc) : M pyval :=
  raise NotImplementedError.

Definition pre_exec (self : loc) : M pyval :=
  raise NotImplementedError.

Definition get_out_parameter_values (self : loc) (out_param_names : list string)
    : M pyval :=
  raise NotImplementedError.

Definition post_exec (self : loc) : M pyval :=
  raise NotImplementedError.

Definition get_result_cursor_strategy (self : loc) (result : pyval) : M pyval :=
  raise NotImplementedError.

Definition handle_dbapi_exception (self : loc) (e : pyval) : M pyval :=
  raise NotImplementedError.

Definition lastrow_has_defaults (self : loc) : M pyval :=
  raise NotImplementedError.

Definition get_rowcount (self : loc) : M pyval :=
  raise NotImplementedError.

End ExecutionContext.

(** ** class AdaptedConnection: the textual form *)

Module AdaptedRepr.

Import AdaptedConnection.

(** ["<AdaptedConnection %s>" % self._connection], for a wrapped
    connection that is not a tuple; [str] is Python's [str()] on it. *)
Definition __repr__ (str : pyval -> string) (self : AdaptedConnection.t) : M string :=
  c ← read_connection self;
  mret ("<AdaptedConnection " ++ str c ++ ">").

End AdaptedRepr.

(** ** Sample dialects *)

(** An initializer as a dialect's [on_connect] would hand back. *)
Definition set_flags : Dialect.initializer := fun _ => mret tt.

(** A dialect whose class overrides [on_connect] alone. *)
Definition overriding_dialect : Dialect.t :=
  Dialect.MkDialect Dialect.Dialect None (Some (mret (Some set_flags))).

Definition plain_url : URL := MkURL "sqlite" None ∅.

(** A foreign key as a dialect would report it. *)
Definition sample_foreign_key : list (string * pyval) :=
  [ ("name", PyNone);
    ("constrained_columns", PyList [PyStr "user_id"]);
    ("referred_schema", PyNone);
    ("referred_table", PyStr "users");
    ("referred_columns", PyList [PyStr "id"]) ].

(** The attributes [ExceptionContext] assigns [None] in its class body. *)
Definition none_attributes : list string :=
  [ "connection"; "engine"; "cursor"; "statement"; "parameters";
    "original_exception"; "sqlalchemy_exception"; "chained_exception";
    "execution_context"; "is_disconnect" ].

(** ** A dialect that implements the two-phase hooks *)

Module TwoPhase.

(** Modelled from the spec: the dialects that implement the two-phase
    hooks live in the dialect packages, which are not part of these
    sources; [Dialect] only declares the hooks.  The state such a
    dialect drives: how many ids [create_xid] has handed out; for each
    connection the id and the work of the transaction begun on it; the
    prepared transactions that are neither committed nor rolled back
    ("pending"), oldest first; and the work made durable.  The id type
    [X] is the dialect's own ("dialect-defined" in the spec, "its format
    is unspecified" in the docstring of [create_xid]); ids are only
    compared, never taken apart. *)
Record backend (X : Type) := Backend {
  next_serial : nat;
  active : gmap loc (X * list string);
  prepared : list (X * list string);
  committed : list string
}.
Arguments Backend {X} _ _ _ _.
Arguments next_serial {X} _.
Arguments active {X} _.
Arguments prepared {X} _.
Arguments committed {X} _.

(** Modelled from the spec: the "pending transaction ids", those of the
    "uncommitted prepared" transactions. *)
Definition pending {X} (st : backend X) : list X := (prepared st).*1.

(** Modelled from the spec: the work recorded for a prepared id. *)
Definition prepared_work {X} `{EqDecision X} (x : X) (st : backend X)
    : option (list string) :=
  snd <$> find (fun p => bool_decide (p.1 = x)) (prepared st).

(** Modelled from the spec: the prepared transactions without those of
    id [x]. *)
Definition forget {X} `{EqDecision X} (x : X) (st : backend X)
    : list (X * list string) :=
  filter (fun p => p.1 <> x) (prepared st).

(** Modelled from the spec: "create_xid() -> opaque_id"; [fmt] is the
    dialect's format, the id made of the next serial number. *)
Definition create_xid {X} (fmt : nat -> X) (st : backend X)
    : outcome X * backend X :=
  (Return (fmt (next_serial st)),
   Backend (S (next_serial st)) (active st) (prepared st) (committed st)).

(** Modelled from the spec: [do_begin_twophase(connection, xid)] begins
    a transaction with that id on the connection; the spec is silent on
    a connection that has one begun already, and the model refuses it. *)
Definition do_begin_twophase {X} (connection : loc) (xid : X) (st : backend X)
    : outcome unit * backend X :=
  match active st !! connection with
  | Some _ => (Raise (DriverError "a transaction is in progress"), st)
  | None =>
      (Return tt,
       Backend (next_serial st) (<[connection := (xid, [])]> (active st))
               (prepared st) (committed st))
  end.



(** Modelled from the spec: [do_prepare_twophase(connection, xid)]
    prepares the transaction begun on the connection under that id: it
    leaves the connection and becomes pending, with its work. *)
Definition do_prepare_twophase {X} `{EqDecision X} (connection : loc) (xid : X)
    (st : backend X) : outcome unit * backend X :=
  match active st !! connection with
  | Some (x, work) =>
      if decide (x = xid)
      then (Return tt,
            Backend (next_serial st) (delete connection (active st))
                    (prepared st ++ [(xid, work)])%list (committed st))
      else (Raise (DriverError "another transaction is in progress"), st)
  | None => (Raise (DriverError "no transaction in progress"), st)
  end.

(** Modelled from the spec: [do_commit_twophase(connection, xid,
    is_prepared, recover)], "parameterized by whether prepare was already
    called and whether this is a recovery pass".  A prepared id is
    committed from the pending transactions, on any connection, recovery
    pass or not, and commits "exactly the work done between begin and
    prepare"; an unprepared one is the transaction begun on the
    connection. *)
Definition do_commit_twophase {X} `{EqDecision X} (connection : loc) (xid : X)
    (is_prepared recover : bool) (st : backend X) : outcome unit * backend X :=
  if is_prepared then
    match prepared_work xid st with
    | Some work =>
        (Return tt,
         Backend (next_serial st) (active st) (forget xid st)
                 (committed st ++ work)%list)
    | None => (Raise (DriverError "no such prepared transaction"), st)
    end
  else
    match active st !! connection with
    | Some (x, work) =>
        if decide (x = xid)
        then (Return tt,
              Backend (next_serial st) (delete connection (active st))
                      (prepared st) (committed st ++ work)%list)
        else (Raise (DriverError "another transaction is in progress"), st)
    | None => (Raise (DriverError "no transaction in progress"), st)
    end.

(** Modelled from the spec: [do_rollback_twophase], with the same
    parameters; "with is_prepared=False" it "must be accepted without
    requiring a prior prepare call".  The work is dropped. *)
Definition do_rollback_twophase {X} `{EqDecision X} (connection : loc) (xid : X)
    (is_prepared recover : bool) (st : backend X) : outcome unit * backend X :=
  if is_prepared then
    match prepared_work xid st with
    | Some _ =>
        (Return tt,
         Backend (next_serial st) (active st) (forget xid st) (committed st))
    | None => (Raise (DriverError "no such prepared transaction"), st)
    end
  else
    match active st !! connection with
    | Some (x, _) =>
        if decide (x = xid)
        then (Return tt,
              Backend (next_serial st) (delete connection (active st))
                      (prepared st) (committed st))
        else (Raise (DriverError "another transaction is in progress"), st)
    | None => (Raise (DriverError "no transaction in progress"), st)
    end.

(** Modelled from the spec: "do_recover_twophase -> list of pending
    transaction ids"; in the docstring, the "list of uncommitted prepared
    two phase transaction identifiers on the given connection". *)
Definition do_recover_twophase {X} (connection : loc) (st : backend X)
    : outcome (list X) * backend X :=
  (Return (pending st), st).


End TwoPhase.



(** * Properties *)

(** The world before anything happened. *)
Definition w0 : world := World ∅ [].

(** A driver connection, by reference. *)
Definition conn1 : pyval := PyRef 1%positive.

(** A world holding the caller's keyword dict at location 1. *)
Definition kwargs1 : loc := 1%positive.

Definition w_kwargs : world :=
  World {[ kwargs1 := PyDictObj {[ "echo" := PyBool true ]} ]} [].

Definition sample_url : URL :=
  MkURL "mysql+pymysql" (Some "test")
    (<["plugin" := ["myplugin"]]> (<["my_argument_one" := ["foo"]]> ∅)).

(** ** Reflection hooks *)

Section ReflectionHooks.

Import Dialect.

Variables (self : Dialect.t) (connection : pyval).
Variables (name index_name : string) (schema : option string) (kw : kwargs).

Lemma raising_hooks (h : reflection_hook) (w : world) :
  is_get_table_options h = false ->
  call_hook h self connection name index_name schema kw w
  = (Raise NotImplementedError, w).
Proof. destruct h; intros Hh; try discriminate Hh; reflexivity. Qed.

Lemma get_table_options_falls_through (w : world) :
  get_table_options self connection name schema kw w = (Return PyNone, w).
Proof. reflexivity. Qed.

(** C1, on the code: of the seventeen reflection hooks of the base
    class, sixteen raise [NotImplementedError] for every connection,
    name and schema and leave the world as it was; [get_table_options]
    does not raise, it returns [None]. *)
Theorem reflection_hooks_default (h : reflection_hook) (w : world) :
  In h reflection_hooks /\
  call_hook h self connection name index_name schema kw w
  = (if is_get_table_options h then Return PyNone
     else Raise NotImplementedError, w).
Proof.
  split.
  - destruct h; cbn; tauto.
  - destruct (is_get_table_options h) eqn:Hh.
    + destruct h; try discriminate Hh. apply get_table_options_falls_through.
    + now apply raising_hooks.
Qed.

End ReflectionHooks.

(** ** Awaiting through an adapted connection *)

Section RunAsync.

Import Concurrency AdaptedConnection.

Lemma drive_resolves (a : awaitable) : resolves a (drive a).
Proof. induction a as [r | k IH]; cbn; now constructor. Qed.

Lemma resolves_drive (a : awaitable) (r : outcome pyval) :
  resolves a r -> drive a = r.
Proof. induction 1 as [r | k r _ IH]; cbn; [reflexivity | exact IH]. Qed.

Lemma resolves_unique (a : awaitable) (r1 r2 : outcome pyval) :
  resolves a r1 -> resolves a r2 -> r1 = r2.
Proof.
  intros H1 H2. apply resolves_drive in H1, H2. congruence.
Qed.

Lemma run_async_unfold (c : pyval) (fn : pyval -> M awaitable) (w : world) :
  run_async (MkAdapted (Some c)) fn w
  = match fn c w with
    | (Return aw, w') => (drive aw, w')
    | (Raise e, w') => (Raise e, w')
    end.
Proof.
  unfold run_async, read_connection, mbind, M_bind, mret, M_ret; cbn.
  destruct (fn c w) as [[aw | e] w']; reflexivity.
Qed.

(** C2: for a connection wrapping the driver connection [c] (which
    [driver_connection] hands out), if [fn c] yields an awaitable that
    resolves to [r] (a value, or a failure), then [run_async fn]
    ends with exactly [r]: the value is returned, the failure raised, in
    the world [fn] left behind. *)
Theorem run_async_returns_resolved
    (self : AdaptedConnection.t) (c : pyval) (fn : pyval -> M awaitable)
    (aw : awaitable) (r : outcome pyval) (w w' : world) :
  _connection self = Some c ->
  fn c w = (Return aw, w') ->
  resolves aw r ->
  driver_connection self w = (Return c, w) /\
  run_async self fn w = (r, w').
Proof.
  intros Hc Hfn Hres. destruct self as [slot]; cbn in Hc; subst slot.
  split; [reflexivity |].
  rewrite run_async_unfold, Hfn. f_equal. now apply resolves_drive.
Qed.

Lemma run_async_returns_resolved_witness :
  run_async (MkAdapted (Some conn1))
    (fun c => mret (Suspend (Suspend (Done (Return c))))) w0
  = (Return conn1, w0) /\
  run_async (MkAdapted (Some conn1))
    (fun _ => mret (Suspend (Done (Raise (DriverError "connection lost"))))) w0
  = (Raise (DriverError "connection lost"), w0).
Proof.
  split.
  - apply (run_async_returns_resolved (MkAdapted (Some conn1)) conn1
             (fun c => mret (Suspend (Suspend (Done (Return c)))))
             (Suspend (Suspend (Done (Return conn1))))
             (Return conn1) w0 w0).
    + reflexivity.
    + reflexivity.
    + repeat constructor.
  - apply (run_async_returns_resolved (MkAdapted (Some conn1)) conn1
             (fun _ => mret (Suspend (Done (Raise (DriverError "connection lost")))))
             (Suspend (Done (Raise (DriverError "connection lost"))))
             (Raise (DriverError "connection lost")) w0 w0).
    + reflexivity.
    + reflexivity.
    + repeat constructor.
Defined.

End RunAsync.

(** ** Hooks with a body that does not raise *)

Section UsableDefaults.

Import Dialect.

Lemma connect_returns_None (self : Dialect.t) (cargs : list pyval)
    (cparams : kwargs) (w : world) :
  connect self cargs cparams w = (Return PyNone, w).
Proof. reflexivity. Qed.

Lemma connect_documented_calls_dbapi (conn : pyval) (cargs : list pyval)
    (cparams : kwargs) (w : world) :
  connect_documented (base (Some (recording_dbapi conn))) cargs cparams w
  = (Return conn, World (heap w) (dbapi_log w ++ [ConnectCall cargs cparams])).
Proof. reflexivity. Qed.

(** C3, as the claim has it, fails: the base [connect] hands back no
    connection and records no call of a DBAPI [connect], on an instance
    of the base class as it is (no [dbapi]) and on one given a DBAPI
    module all the same. *)
Lemma base_connect_makes_no_dbapi_call :
  (~ exists conn w',
       connect (base None) [PyStr "test.db"] [("timeout", PyInt 5)] w0
       = (Return conn, w') /\
       In (ConnectCall [PyStr "test.db"] [("timeout", PyInt 5)]) (dbapi_log w')) /\
  (~ exists w',
       connect (base (Some (recording_dbapi conn1)))
         [PyStr "test.db"] [("timeout", PyInt 5)] w0
       = (Return conn1, w')).
Proof.
  split.
  - intros (conn & w' & Hrun & Hin). injection Hrun as _ <-. destruct Hin.
  - intros (w' & Hrun). discriminate Hrun.
Qed.

(** C3, amended: [connect], [on_connect], [get_dialect_cls],
    [load_provisioning] and [engine_created] of the base class return
    for every input and never raise; the base [connect] returns [None]
    and leaves the world as it was, so it calls no DBAPI [connect],
    whether or not the instance has a [dbapi]. *)
Theorem usable_defaults_connect_skips_dbapi :
  (forall self cargs cparams w, connect self cargs cparams w = (Return PyNone, w)) /\
  (forall self w, on_connect self w = (Return None, w)) /\
  (forall c url w, get_dialect_cls c url w = (Return c, w)) /\
  (forall c w, load_provisioning c w = (Return PyNone, w)) /\
  (forall c engine w, engine_created c engine w = (Return PyNone, w)) /\
  (forall self cargs cparams w,
      dbapi_log (connect self cargs cparams w).2 = dbapi_log w).
Proof. repeat split. Qed.

End UsableDefaults.

(** ** URL parameters of a plugin *)

Section UpdateUrl.

Import CreateEnginePlugin.

Lemma lookup_foldr_delete (names : list string) (m : gmap string (list string))
    (k : string) :
  foldr delete m names !! k = if decide (k ∈ names) then None else m !! k.
Proof.
  induction names as [| n names IH]; cbn.
  - case_decide as Hin; [by apply elem_of_nil in Hin | done].
  - destruct (decide (n = k)) as [-> | Hne].
    + rewrite lookup_delete_eq. by rewrite decide_True by set_solver.
    + rewrite lookup_delete_ne by done. rewrite IH.
      destruct (decide (k ∈ names)) as [Hin | Hout].
      * by rewrite decide_True by set_solver.
      * rewrite decide_False; [done |].
        intros [Heq | Hin]%elem_of_cons; [by subst n | done].
Qed.

Lemma difference_update_query_absent (names : list string) (u : URL) :
  (forall k, k ∈ names -> query u !! k = None) ->
  difference_update_query names u = u.
Proof.
  intros Habs. destruct u as [drv db q]; unfold difference_update_query; cbn in *.
  f_equal. apply map_eq. intros k. rewrite lookup_foldr_delete.
  case_decide as Hin; [symmetry; by apply Habs | done].
Qed.

Lemma difference_update_query_idempotent (names : list string) (u : URL) :
  difference_update_query names (difference_update_query names u)
  = difference_update_query names u.
Proof.
  apply difference_update_query_absent. intros k Hin; cbn.
  rewrite lookup_foldr_delete. by rewrite decide_True.
Qed.

(** C4, as the claim has it for the base class, fails: handed a URL,
    the base [update_url] does not hand that URL back. *)
Lemma update_url_base_not_unchanged :
  update_url 2%positive sample_url w0 <> (Return (PyURL sample_url), w0).
Proof. discriminate. Qed.

(** C4, amended: the base [update_url] returns [None] for every URL,
    so it strips nothing and hands no URL back; the override the class
    docstring shows, [url.difference_update_query(names)], returns a URL
    without the parameters [names], every other parameter and the rest
    of the URL as they were, and returns the URL as it was when none of
    [names] is in it. *)
Theorem update_url_base_None_override_strips :
  (forall self u w, update_url self u w = (Return PyNone, w)) /\
  (forall names self u w,
      exists u', update_url_documented names self u w = (Return (PyURL u'), w) /\
        drivername u' = drivername u /\ database u' = database u /\
        (forall k, query u' !! k
                   = if decide (k ∈ names) then None else query u !! k) /\
        update_url_documented names self u' w = (Return (PyURL u'), w)) /\
  (forall names self u w,
      (forall k, k ∈ names -> query u !! k = None) ->
      update_url_documented names self u w = (Return (PyURL u), w)).
Proof.
  split; [reflexivity | split].
  - intros names self u w. exists (difference_update_query names u).
    repeat split.
    + intros k. apply lookup_foldr_delete.
    + unfold update_url_documented, mret, M_ret.
      by rewrite difference_update_query_idempotent.
  - intros names self u w Habs. unfold update_url_documented, mret, M_ret.
    by rewrite difference_update_query_absent.
Qed.

Lemma update_url_base_None_override_strips_witness :
  update_url 2%positive sample_url w0 = (Return PyNone, w0) /\
  update_url_documented ["log_cursor_logging_name"] 2%positive sample_url w0
  = (Return (PyURL sample_url), w0).
Proof.
  destruct update_url_base_None_override_strips as (Hbase & _ & Habsent).
  split; [apply Hbase |].
  apply Habsent. intros k Hin.
  apply list_elem_of_singleton in Hin; subst k. reflexivity.
Defined.

End UpdateUrl.

(** ** Table comments *)

Section TableComment.

Import Dialect Reflected.

Example table_comment_text_admits_empty_str :
  conforms ReflectedTableComment (PyDict [("text", PyStr "")]) = true.
Proof. reflexivity. Qed.

Example table_comment_rejects_missing_text :
  conforms ReflectedTableComment (PyDict []) = false.
Proof. reflexivity. Qed.

Example check_constraint_name_admits_None :
  conforms ReflectedCheckConstraint
    (PyDict [("name", PyNone); ("sqltext", PyStr "x > 0")]) = true.
Proof. reflexivity. Qed.

Example unique_constraint_columns_are_str :
  conforms ReflectedUniqueConstraint
    (PyDict [("name", PyStr "uq"); ("column_names", PyList [PyStr "a"; PyNone])])
  = false.
Proof. reflexivity. Qed.

(** C5, as the claim has it, fails: the declared result type does not
    admit [None] for [text]. *)
Lemma table_comment_text_rejects_None :
  conforms ReflectedTableComment (PyDict [("text", PyNone)]) = false.
Proof. reflexivity. Qed.

(** C5, amended: the base [get_table_comment] raises
    [NotImplementedError] for every connection, table and schema, so it
    returns no placeholder of any kind; [ReflectedTableComment] declares
    [text: str], so a dict with the one key [text] conforms exactly when
    the value is a string, and [None] is not admitted. *)
Theorem table_comment_raises_text_is_str :
  (forall self connection table_name schema kw w,
      get_table_comment self connection table_name schema kw w
      = (Raise NotImplementedError, w)) /\
  (forall v, conforms ReflectedTableComment (PyDict [("text", v)]) = true
             <-> exists s, v = PyStr s).
Proof.
  split; [reflexivity |].
  intros v; split.
  - destruct v; cbn; try discriminate. eauto.
  - intros [s ->]. reflexivity.
Qed.

End TableComment.

(** ** Resolving the dialect class *)

Section DialectClass.

Import Dialect.

Lemma get_dialect_cls_identity (c : cls) (url : URL) (w : world) :
  get_dialect_cls c url w = (Return c, w).
Proof. reflexivity. Qed.

(** C6: on a class that takes [get_dialect_cls] from [Dialect] (the
    base class first of all), [get_dialect_cls] returns the class it is
    called on, for every URL, and [get_async_dialect_cls] returns what
    [get_dialect_cls] returns. *)
Theorem dialect_cls_defaults_agree (c : cls) (url : URL) (w : world) :
  own_get_dialect_cls c = None ->
  get_dialect_cls c url w = (Return c, w) /\
  get_async_dialect_cls c url w = get_dialect_cls c url w.
Proof.
  intros Hown. split; [apply get_dialect_cls_identity |].
  unfold get_async_dialect_cls, bound_get_dialect_cls. now rewrite Hown.
Qed.

Lemma dialect_cls_defaults_agree_witness :
  get_dialect_cls Dialect sample_url w0 = (Return Dialect, w0) /\
  get_async_dialect_cls Dialect sample_url w0
  = get_dialect_cls Dialect sample_url w0.
Proof. apply (dialect_cls_defaults_agree Dialect sample_url w0). reflexivity. Defined.

End DialectClass.

(** ** Two-phase transactions *)

Section TwoPhaseBase.

Import Dialect.

(** On the base class the two-phase hooks are declarations only: each
    raises [NotImplementedError], for every connection, id and flag. *)
Lemma twophase_hooks_raise
    (self : Dialect.t) (connection xid : pyval) (is_prepared recover : bool)
    (w : world) :
  do_recover_twophase self connection w = (Raise NotImplementedError, w) /\
  create_xid self w = (Raise NotImplementedError, w) /\
  do_begin_twophase self connection xid w = (Raise NotImplementedError, w) /\
  do_prepare_twophase self connection xid w = (Raise NotImplementedError, w) /\
  do_commit_twophase self connection xid is_prepared recover w
  = (Raise NotImplementedError, w) /\
  do_rollback_twophase self connection xid is_prepared recover w
  = (Raise NotImplementedError, w).
Proof. repeat split. Qed.

End TwoPhaseBase.

(** ** Pending ids of a dialect with two-phase transactions *)

Section TwoPhasePending.

Import TwoPhase.

Context {X : Type} `{EqDecision X} (fmt : nat -> X).
Hypothesis fmt_inj : forall j k, fmt j = fmt k -> j = k.








End TwoPhasePending.


(** ** Attributes of heap objects *)

Section Attributes.

Variables (w : world) (l : loc) (ns d : gmap string pyval).
Hypothesis Hobj : heap w !! l = Some (PyInstance ns d).

Lemma getattr_own (k : string) (v : pyval) :
  d !! k = Some v -> getattr l k w = (Return v, w).
Proof. intros Hk. unfold getattr. now rewrite Hobj, Hk. Qed.

Lemma getattr_class (k : string) (v : pyval) :
  d !! k = None -> ns !! k = Some v -> getattr l k w = (Return v, w).
Proof. intros Hk Hns. unfold getattr. now rewrite Hobj, Hk, Hns. Qed.

Lemma setattr_instance (k : string) (v : pyval) :
  setattr l k v w
  = (Return tt,
     World (<[l := PyInstance ns (<[k := v]> d)]> (heap w)) (dbapi_log w)).
Proof. unfold setattr. now rewrite Hobj. Qed.

End Attributes.

Lemma new_instance_fresh (ns : gmap string pyval) (w : world) :
  exists l, heap w !! l = None /\
    new_instance ns w
    = (Return l, World (<[l := PyInstance ns ∅]> (heap w)) (dbapi_log w)).
Proof.
  exists (fresh (dom (heap w))). split; [| reflexivity].
  apply not_elem_of_dom, is_fresh.
Qed.

(** ** The pool-invalidation flag *)

Section InvalidatePool.

Import ExceptionContext.

Lemma class_ns_invalidate :
  class_ns !! "invalidate_pool_on_disconnect" = Some (PyBool true).
Proof. reflexivity. Qed.

(** C8: a freshly constructed [ExceptionContext] reads
    [invalidate_pool_on_disconnect] as [True], before and after the
    error is classified ([is_disconnect] set, to a disconnect or not);
    a handler may then set the flag to [False], after which it reads
    [False] and the classification is as it was. *)
Theorem invalidate_pool_default_then_overwrite (w : world) (disc : bool) :
  exists ctx w1 w2 w3,
    new w = (Return ctx, w1) /\
    getattr ctx "invalidate_pool_on_disconnect" w1 = (Return (PyBool true), w1) /\
    setattr ctx "is_disconnect" (PyBool disc) w1 = (Return tt, w2) /\
    getattr ctx "invalidate_pool_on_disconnect" w2 = (Return (PyBool true), w2) /\
    setattr ctx "invalidate_pool_on_disconnect" (PyBool false) w2 = (Return tt, w3) /\
    getattr ctx "invalidate_pool_on_disconnect" w3 = (Return (PyBool false), w3) /\
    getattr ctx "is_disconnect" w3 = (Return (PyBool disc), w3).
Proof.
  destruct (new_instance_fresh class_ns w) as (ctx & _ & Hnew).
  eexists ctx, _, _, _. split; [exact Hnew |].
  split.
  { eapply getattr_class; [apply lookup_insert_eq | done | apply class_ns_invalidate]. }
  split.
  { eapply setattr_instance. apply lookup_insert_eq. }
  split.
  { eapply getattr_class; [apply lookup_insert_eq | done | apply class_ns_invalidate]. }
  split.
  { eapply setattr_instance. apply lookup_insert_eq. }
  split.
  { eapply getattr_own; [apply lookup_insert_eq | apply lookup_insert_eq]. }
  eapply getattr_own; [apply lookup_insert_eq |].
  rewrite lookup_insert_ne by done. apply lookup_insert_eq.
Qed.

End InvalidatePool.

(** ** Constructing a plugin *)

Section PluginInit.

Import CreateEnginePlugin.

(** [__init__] on an existing instance: only that instance changes, and
    only its [url]. *)
Lemma init_frame (self kwargs : loc) (url : URL) (ns d : gmap string pyval)
    (w : world) :
  heap w !! self = Some (PyInstance ns d) ->
  __init__ self url kwargs w
  = (Return tt,
     World (<[self := PyInstance ns (<["url" := PyURL url]> d)]> (heap w))
           (dbapi_log w)).
Proof. intros Hself. unfold __init__. now apply setattr_instance. Qed.

Lemma new_unfold (url : URL) (kwargs : loc) (w : world) :
  exists self, heap w !! self = None /\
    new url kwargs w
    = (Return self,
       World (<[self := PyInstance class_ns {["url" := PyURL url]}]> (heap w))
             (dbapi_log w)).
Proof.
  destruct (new_instance_fresh class_ns w) as (self & Hfresh & Hnew).
  exists self. split; [exact Hfresh |].
  unfold new, mbind, M_bind. rewrite Hnew.
  erewrite init_frame by apply lookup_insert_eq. cbn.
  unfold mret, M_ret. by rewrite insert_insert_eq, insert_empty.
Qed.

(** C9: constructing the base [CreateEnginePlugin] with a URL and the
    caller's [kwargs] dict stores the URL as [self.url] and leaves the
    dict as it was, entry for entry; no other object changes either, and
    no DBAPI call is made. *)
Theorem plugin_init_keeps_kwargs
    (url : URL) (kwargs : loc) (entries : gmap string pyval) (w : world) :
  heap w !! kwargs = Some (PyDictObj entries) ->
  exists self w',
    new url kwargs w = (Return self, w') /\
    getattr self "url" w' = (Return (PyURL url), w') /\
    heap w' !! kwargs = Some (PyDictObj entries) /\
    (forall l, l <> self -> heap w' !! l = heap w !! l) /\
    dbapi_log w' = dbapi_log w.
Proof.
  intros Hkw. destruct (new_unfold url kwargs w) as (self & Hfresh & Hnew).
  eexists self, _. split; [exact Hnew |].
  assert (Hne : self <> kwargs) by congruence.
  repeat split.
  - eapply getattr_own; [apply lookup_insert_eq | apply lookup_singleton_eq].
  - cbn. by rewrite lookup_insert_ne.
  - intros l Hl. cbn. by rewrite lookup_insert_ne.
Qed.

Lemma plugin_init_keeps_kwargs_witness :
  exists self w',
    new sample_url kwargs1 w_kwargs = (Return self, w') /\
    getattr self "url" w' = (Return (PyURL sample_url), w') /\
    heap w' !! kwargs1 = Some (PyDictObj {[ "echo" := PyBool true ]}) /\
    (forall l, l <> self -> heap w' !! l = heap w_kwargs !! l) /\
    dbapi_log w' = dbapi_log w_kwargs.
Proof.
  apply (plugin_init_keeps_kwargs sample_url kwargs1
           {[ "echo" := PyBool true ]} w_kwargs).
  reflexivity.
Defined.

End PluginInit.

(** ** The per-connection initializer *)

Section OnConnect.

Import Dialect.

(** C10: on a dialect that takes [on_connect] from [Dialect],
    [on_connect_url url] is [on_connect ()] for every URL, and both
    return [None]: no initializer. *)
Theorem on_connect_url_is_on_connect (self : Dialect.t) (url : URL) (w : world) :
  own_on_connect self = None ->
  on_connect_url self url w = on_connect self w /\
  on_connect_url self url w = (Return None, w).
Proof.
  intros Hown. unfold on_connect_url, bound_on_connect. rewrite Hown.
  split; reflexivity.
Qed.

Lemma on_connect_url_is_on_connect_witness :
  on_connect_url (base None) sample_url w0 = on_connect (base None) w0 /\
  on_connect_url (base None) sample_url w0 = (Return None, w0).
Proof.
  apply (on_connect_url_is_on_connect (base None) sample_url w0). reflexivity.
Defined.

End OnConnect.

(** * Further properties of the module *)

(** ** The remaining hooks of the base dialect *)

Section DialectHooksInert.

Import Dialect DialectHooks.

Variables (self : Dialect.t) (a : call_args).

Lemma call_hook_outcome (h : hook) (w : world) :
  call_hook h self a w
  = (if is_initialize h then Return PyNone else Raise NotImplementedError, w).
Proof. destruct h; reflexivity. Qed.

(** X1: a run of base-class hooks (connection arguments, naming,
    transactions, savepoints, execution, isolation levels) never changes
    the world; it returns, a [None] per call, exactly when every hook in
    it is [initialize], and otherwise ends in [NotImplementedError]. *)
Theorem call_hooks_inert (hs : list hook) (w : world) :
  call_hooks hs self a w
  = (if forallb is_initialize hs
     then Return (replicate (length hs) PyNone)
     else Raise NotImplementedError, w).
Proof.
  induction hs as [| h hs IH]; [reflexivity |].
  cbn [call_hooks forallb length replicate].
  unfold mbind, M_bind at 1. rewrite call_hook_outcome.
  destruct (is_initialize h); cbn [andb]; [| reflexivity].
  unfold mbind, M_bind at 1. rewrite IH.
  destruct (forallb is_initialize hs); reflexivity.
Qed.

End DialectHooksInert.

(** ** The execution context *)

Section ExecutionContextHooks.

Import ExecutionContext.

Lemma raise_bind {A B : Type} (e : exn) (k : A -> M B) (w : world) :
  (raise e ≫= k) w = (Raise e, w).
Proof. reflexivity. Qed.

(** X2: on the base [ExecutionContext] each of the eight hooks raises
    [NotImplementedError] on its own, for every input and with the world
    unchanged; so the execution cycle cannot start: a caller that runs
    [pre_exec], [create_cursor], [post_exec] and [get_rowcount] in turn
    gets that exception with nothing done. *)
Theorem execution_context_cycle_raises
    (self : loc) (names : list string) (result e : pyval) (w : world) :
  (_ ← pre_exec self; cur ← create_cursor self; _ ← post_exec self;
   n ← get_rowcount self; mret (cur, n)) w
  = (Raise NotImplementedError, w) /\
  pre_exec self w = (Raise NotImplementedError, w) /\
  create_cursor self w = (Raise NotImplementedError, w) /\
  post_exec self w = (Raise NotImplementedError, w) /\
  get_rowcount self w = (Raise NotImplementedError, w) /\
  get_out_parameter_values self names w = (Raise NotImplementedError, w) /\
  get_result_cursor_strategy self result w = (Raise NotImplementedError, w) /\
  handle_dbapi_exception self e w = (Raise NotImplementedError, w) /\
  lastrow_has_defaults self w = (Raise NotImplementedError, w).
Proof. split; [apply raise_bind | repeat split]. Qed.

End ExecutionContextHooks.

(** ** The bind-typing strategies *)

Section BindTypingClosed.

Import BindTyping.



End BindTypingClosed.

(** ** Error contexts do not share their flags *)

Section ExceptionContextInstances.

Import ExceptionContext.

Lemma getattr_fresh_instance (ns : gmap string pyval) (l : loc) (h : gmap loc object)
    (log : list connect_call) (name : string) :
  getattr l name (World (<[l := PyInstance ns ∅]> h) log)
  = (match ns !! name with
     | Some v => Return v
     | None => Raise (AttributeError name)
     end, World (<[l := PyInstance ns ∅]> h) log).
Proof.
  unfold getattr; cbn. rewrite lookup_insert_eq, lookup_empty.
  destruct (ns !! name); reflexivity.
Qed.

(** X4: narrowing the pool invalidation on one error context is local to
    it: of two contexts, after a handler sets the flag of the first to
    [False], the first reads [False], the second still reads [True], and
    so does a context constructed afterwards. *)
Theorem invalidate_pool_flag_is_per_context (w : world) :
  exists c1 c2 c3 w1 w2 w3 w4,
    new w = (Return c1, w1) /\
    new w1 = (Return c2, w2) /\
    setattr c1 "invalidate_pool_on_disconnect" (PyBool false) w2 = (Return tt, w3) /\
    new w3 = (Return c3, w4) /\
    c1 <> c2 /\ c1 <> c3 /\ c2 <> c3 /\
    getattr c1 "invalidate_pool_on_disconnect" w4 = (Return (PyBool false), w4) /\
    getattr c2 "invalidate_pool_on_disconnect" w4 = (Return (PyBool true), w4) /\
    getattr c3 "invalidate_pool_on_disconnect" w4 = (Return (PyBool true), w4).
Proof.
  destruct (new_instance_fresh class_ns w) as (c1 & F1 & N1).
  set (w1 := World (<[c1 := PyInstance class_ns ∅]> (heap w)) (dbapi_log w)) in *.
  destruct (new_instance_fresh class_ns w1) as (c2 & F2 & N2).
  set (w2 := World (<[c2 := PyInstance class_ns ∅]> (heap w1)) (dbapi_log w1)) in *.
  assert (H12 : c1 <> c2).
  { intros <-. cbn in F2. by rewrite lookup_insert_eq in F2. }
  assert (Hc1 : heap w2 !! c1 = Some (PyInstance class_ns ∅)).
  { cbn. rewrite lookup_insert_ne by done. apply lookup_insert_eq. }
  pose proof (setattr_instance w2 c1 class_ns ∅ Hc1
                "invalidate_pool_on_disconnect" (PyBool false)) as S3.
  set (w3 := World _ _) in S3.
  destruct (new_instance_fresh class_ns w3) as (c3 & F3 & N3).
  set (w4 := World (<[c3 := PyInstance class_ns ∅]> (heap w3)) (dbapi_log w3)) in *.
  assert (H13 : c1 <> c3).
  { intros <-. cbn in F3. by rewrite lookup_insert_eq in F3. }
  assert (H23 : c2 <> c3).
  { intros <-. cbn in F3. rewrite lookup_insert_ne in F3 by done.
    by rewrite lookup_insert_eq in F3. }
  exists c1, c2, c3, w1, w2, w3, w4.
  repeat (split; [done |]).
  split; [| split].
  - eapply getattr_own; [| apply lookup_insert_eq].
    cbn. rewrite lookup_insert_ne by done. apply lookup_insert_eq.
  - eapply getattr_class; [| apply lookup_empty | apply class_ns_invalidate].
    cbn. rewrite !lookup_insert_ne by done. apply lookup_insert_eq.
  - eapply getattr_class; [| apply lookup_empty | apply class_ns_invalidate].
    cbn. apply lookup_insert_eq.
Qed.

Lemma getattr_after_setattr (l : loc) (ns d : gmap string pyval) (h : gmap loc object)
    (log : list connect_call) (k name : string) (v : pyval) :
  h !! l = Some (PyInstance ns d) ->
  exists w',
    setattr l k v (World h log) = (Return tt, w') /\
    getattr l k w' = (Return v, w') /\
    (name <> k -> d !! name = None ->
     getattr l name w'
     = (match ns !! name with
        | Some u => Return u
        | None => Raise (AttributeError name)
        end, w')).
Proof.
  intros Hl. eexists. split; [by apply (setattr_instance _ l ns d) |].
  split.
  - eapply getattr_own; [apply lookup_insert_eq | apply lookup_insert_eq].
  - intros Hne Hd. unfold getattr; cbn.
    rewrite lookup_insert_eq, lookup_insert_ne, Hd by done.
    destruct (ns !! name); reflexivity.
Qed.

(** X5: on a freshly constructed error context each of the ten
    attributes [connection], [engine], [cursor], [statement],
    [parameters], [original_exception], [sqlalchemy_exception],
    [chained_exception], [execution_context] and [is_disconnect] reads
    [None] (so the error is neither a disconnect nor not one before it is
    classified) and [invalidate_pool_on_disconnect] reads [True];
    assigning one of the eleven leaves the other ten as they were. *)
Theorem fresh_context_reads_class_defaults (w : world) :
  exists ctx w1,
    new w = (Return ctx, w1) /\
    Forall (fun name => getattr ctx name w1 = (Return PyNone, w1)) none_attributes /\
    getattr ctx "invalidate_pool_on_disconnect" w1 = (Return (PyBool true), w1) /\
    (forall k v, k ∈ "invalidate_pool_on_disconnect" :: none_attributes ->
       exists w2,
         setattr ctx k v w1 = (Return tt, w2) /\
         getattr ctx k w2 = (Return v, w2) /\
         Forall (fun name =>
                   name <> k -> getattr ctx name w2 = (Return PyNone, w2))
                none_attributes /\
         ("invalidate_pool_on_disconnect" <> k ->
          getattr ctx "invalidate_pool_on_disconnect" w2
          = (Return (PyBool true), w2))).
Proof.
  destruct (new_instance_fresh class_ns w) as (ctx & _ & Hnew).
  eexists ctx, _. split; [exact Hnew |].
  split; [| split].
  - unfold none_attributes. repeat constructor; by rewrite getattr_fresh_instance.
  - by rewrite getattr_fresh_instance.
  - intros k v _.
    set (h1 := <[ctx := PyInstance class_ns ∅]> (heap w)).
    destruct (getattr_after_setattr ctx class_ns ∅ h1 (dbapi_log w) k k v
                (lookup_insert_eq _ _ _)) as (w2 & Hset & Hget & _).
    exists w2. split; [exact Hset |]. split; [exact Hget |].
    assert (Hother : forall name u, class_ns !! name = Some u -> name <> k ->
                       getattr ctx name w2 = (Return u, w2)).
    { intros name u Hu Hne.
      destruct (getattr_after_setattr ctx class_ns ∅ h1 (dbapi_log w) k name v
                  (lookup_insert_eq _ _ _)) as (w2' & Hset' & _ & Hfr).
      rewrite Hset in Hset'. injection Hset' as <-.
      rewrite (Hfr Hne (lookup_empty _)), Hu. reflexivity. }
    split.
    + unfold none_attributes. repeat constructor; intros Hne; by apply Hother.
    + intros Hne. by apply Hother.
Qed.

End ExceptionContextInstances.

(** ** Adapted connections: failures *)

Section AdaptedEdges.

Import Concurrency AdaptedConnection AdaptedRepr.

(** X6: on an adapted connection whose [_connection] slot was never
    filled, [driver_connection], [run_async] and [__repr__] all raise
    [AttributeError]; [run_async] does so before it calls [fn], so
    whatever [fn] would have done to the world has not happened. *)
Theorem empty_slot_raises_before_fn
    (fn : pyval -> M awaitable) (str : pyval -> string) (w : world) :
  driver_connection (MkAdapted None) w = (Raise (AttributeError "_connection"), w) /\
  run_async (MkAdapted None) fn w = (Raise (AttributeError "_connection"), w) /\
  __repr__ str (MkAdapted None) w = (Raise (AttributeError "_connection"), w).
Proof. repeat split. Qed.

(** X7: when [fn] itself raises instead of handing back an awaitable,
    [run_async] raises that same exception, in the world [fn] left
    behind; nothing is awaited. *)
Theorem run_async_propagates_fn_failure
    (self : AdaptedConnection.t) (c : pyval) (fn : pyval -> M awaitable)
    (e : exn) (w w' : world) :
  _connection self = Some c ->
  fn c w = (Raise e, w') ->
  run_async self fn w = (Raise e, w').
Proof.
  intros Hc Hfn. destruct self as [slot]; cbn in Hc; subst slot.
  now rewrite run_async_unfold, Hfn.
Qed.

Lemma run_async_propagates_fn_failure_witness :
  run_async (MkAdapted (Some conn1))
    (fun _ => raise (DriverError "no such codec")) w0
  = (Raise (DriverError "no such codec"), w0).
Proof.
  apply (run_async_propagates_fn_failure (MkAdapted (Some conn1)) conn1
           (fun _ => raise (DriverError "no such codec"))
           (DriverError "no such codec") w0 w0); reflexivity.
Defined.

End AdaptedEdges.

(** ** Overridden hooks are honoured *)

Section Overrides.

Import Dialect.

(** X9: [on_connect_url] of the base class hands back whatever the
    dialect's own [on_connect] hands back, so a dialect that overrides
    only [on_connect] keeps its initializer; the URL plays no part. *)
Theorem on_connect_url_follows_override
    (self : Dialect.t) (m : M (option initializer)) (url1 url2 : URL) (w : world) :
  own_on_connect self = Some m ->
  on_connect_url self url1 w = m w /\
  on_connect_url self url1 w = on_connect_url self url2 w.
Proof.
  intros Hown. unfold on_connect_url, bound_on_connect. rewrite Hown. done.
Qed.

Lemma on_connect_url_follows_override_witness :
  on_connect_url overriding_dialect sample_url w0 = (Return (Some set_flags), w0) /\
  on_connect_url overriding_dialect sample_url w0
  = on_connect_url overriding_dialect plain_url w0.
Proof.
  exact (on_connect_url_follows_override overriding_dialect
           (mret (Some set_flags)) sample_url plain_url w0 eq_refl).
Defined.

(** X10: [get_async_dialect_cls] of the base class goes through the
    class's own [get_dialect_cls]: on a class that redirects
    [get_dialect_cls] the async resolution is redirected the same way,
    while a direct call of the base [get_dialect_cls] still returns the
    class itself. *)
Theorem get_async_dialect_cls_follows_override
    (c : cls) (f : URL -> M cls) (url : URL) (w : world) :
  own_get_dialect_cls c = Some f ->
  get_async_dialect_cls c url w = f url w /\
  get_dialect_cls c url w = (Return c, w).
Proof.
  intros Hown. unfold get_async_dialect_cls, bound_get_dialect_cls.
  rewrite Hown. done.
Qed.

Lemma get_async_dialect_cls_follows_override_witness :
  get_async_dialect_cls (Class "psycopg" (Some (fun _ => mret Dialect)))
    sample_url w0
  = (Return Dialect, w0) /\
  get_dialect_cls (Class "psycopg" (Some (fun _ => mret Dialect))) sample_url w0
  = (Return (Class "psycopg" (Some (fun _ => mret Dialect))), w0).
Proof.
  exact (get_async_dialect_cls_follows_override
           (Class "psycopg" (Some (fun _ => mret Dialect)))
           (fun _ => mret Dialect) sample_url w0 eq_refl).
Defined.

End Overrides.

(** ** The base plugin through an engine construction *)

Section PluginLifecycle.

Import CreateEnginePlugin.

(** X11: constructing the base plugin and then running its four hooks
    in the order of an engine construction ([update_url],
    [handle_dialect_kwargs], [handle_pool_kwargs], [engine_created])
    returns [None] from each hook, allocates the plugin and nothing
    else, keeps [self.url], and leaves every object that existed before
    (the keyword, dialect and pool argument dicts among them) and the
    DBAPI untouched. *)
Theorem base_plugin_lifecycle_is_inert
    (url : URL) (kwargs dialect_args pool_args : loc)
    (dialect_cls : Dialect.cls) (pool_cls engine : pyval) (w : world) :
  exists self w',
    (self ← new url kwargs;
     r1 ← update_url self url;
     r2 ← handle_dialect_kwargs self dialect_cls dialect_args;
     r3 ← handle_pool_kwargs self pool_cls pool_args;
     r4 ← engine_created self engine;
     mret (self, [r1; r2; r3; r4])) w
    = (Return (self, [PyNone; PyNone; PyNone; PyNone]), w') /\
    heap w !! self = None /\
    (forall l, l <> self -> heap w' !! l = heap w !! l) /\
    dbapi_log w' = dbapi_log w /\
    getattr self "url" w' = (Return (PyURL url), w').
Proof.
  destruct (new_unfold url kwargs w) as (self & Hfresh & Hnew).
  eexists self, _. split.
  { unfold mbind at 1, M_bind at 1. rewrite Hnew. reflexivity. }
  split; [exact Hfresh |]. split; [| split; [reflexivity |]].
  - intros l Hl. cbn. by rewrite lookup_insert_ne.
  - eapply getattr_own; [apply lookup_insert_eq | apply lookup_singleton_eq].
Qed.

(** X12: two plugins constructed one after the other, even from the
    same [kwargs], are distinct objects, and each keeps the URL it was
    given: the second construction does not disturb the first. *)
Theorem plugins_keep_their_own_url (url1 url2 : URL) (kwargs : loc) (w : world) :
  exists p1 p2 w1 w2,
    new url1 kwargs w = (Return p1, w1) /\
    new url2 kwargs w1 = (Return p2, w2) /\
    p1 <> p2 /\
    getattr p1 "url" w2 = (Return (PyURL url1), w2) /\
    getattr p2 "url" w2 = (Return (PyURL url2), w2).
Proof.
  destruct (new_unfold url1 kwargs w) as (p1 & F1 & N1).
  set (w1 := World _ _) in N1.
  destruct (new_unfold url2 kwargs w1) as (p2 & F2 & N2).
  assert (Hne : p1 <> p2).
  { intros <-. cbn in F2. by rewrite lookup_insert_eq in F2. }
  eexists p1, p2, w1, _. repeat (split; [done |]). split.
  - eapply getattr_own; [| apply lookup_singleton_eq].
    cbn. rewrite lookup_insert_ne by done. apply lookup_insert_eq.
  - eapply getattr_own; [apply lookup_insert_eq | apply lookup_singleton_eq].
Qed.

End PluginLifecycle.

(** ** Names of reflected constraints *)

Section ConstraintNames.

Import Reflected ReflectedConstraints.

Lemma conforms_field (td : typed_dict) (kvs : list (string * pyval)) (f : field) :
  conforms td (PyDict kvs) = true -> In f td -> field_ok kvs f = true.
Proof.
  cbn. intros [_ Hall]%andb_prop Hin.
  rewrite forallb_forall in Hall. by apply Hall.
Qed.

(** X13: in each of the four reflected constraint structures (check,
    unique, primary key, foreign key) the key [name] is declared
    [Optional[str]] but not [NotRequired]: a conforming dict always has
    the key, holding a string or [None]; a dict without it does not
    conform. *)
Theorem constraint_name_present_and_nullable
    (td : typed_dict) (kvs : list (string * pyval)) :
  In td constraint_types ->
  conforms td (PyDict kvs) = true ->
  exists v, lookup_key "name" kvs = Some v /\ (v = PyNone \/ exists s, v = PyStr s).
Proof.
  intros Htd Hconf.
  assert (Hname : field_ok kvs (Field "name" true (T_Optional T_str)) = true).
  { apply (conforms_field td); [exact Hconf |].
    cbn in Htd. destruct Htd as [<- | [<- | [<- | [<- | []]]]]; cbn; tauto. }
  unfold field_ok in Hname; cbn in Hname.
  destruct (lookup_key "name" kvs) as [v |]; [| discriminate].
  exists v. split; [reflexivity |].
  destruct v; cbn in Hname; try discriminate; eauto.
Qed.

Lemma constraint_name_present_and_nullable_witness :
  exists v,
    lookup_key "name" [("name", PyNone); ("constrained_columns", PyList [PyStr "id"])]
    = Some v /\ (v = PyNone \/ exists s, v = PyStr s).
Proof.
  apply (constraint_name_present_and_nullable ReflectedPrimaryKeyConstraint
           [("name", PyNone); ("constrained_columns", PyList [PyStr "id"])]).
  - cbn. tauto.
  - reflexivity.
Defined.

Lemma admits_list_str (v : pyval) :
  admits (T_List T_str) v = is_str_list v.
Proof.
  destruct v; reflexivity.
Qed.

Lemma required_field_value (td : typed_dict) (kvs : list (string * pyval))
    (k : string) (ty : annot) :
  conforms td (PyDict kvs) = true -> In (Field k true ty) td ->
  exists v, lookup_key k kvs = Some v /\ admits ty v = true.
Proof.
  intros Hconf Hin. pose proof (conforms_field td kvs _ Hconf Hin) as Hok.
  unfold field_ok in Hok; cbn in Hok.
  destruct (lookup_key k kvs) as [v |]; [eauto | discriminate].
Qed.

(** X14: a conforming reflected foreign key always names the table it
    refers to (a string, never [None]) and lists its constrained and
    referred columns as lists of strings; only the referred schema may be
    [None]. *)
Theorem foreign_key_names_its_target (kvs : list (string * pyval)) :
  conforms ReflectedForeignKeyConstraint (PyDict kvs) = true ->
  (exists t, lookup_key "referred_table" kvs = Some (PyStr t)) /\
  (exists cols, lookup_key "constrained_columns" kvs = Some cols /\
                is_str_list cols = true) /\
  (exists cols, lookup_key "referred_columns" kvs = Some cols /\
                is_str_list cols = true) /\
  (exists v, lookup_key "referred_schema" kvs = Some v /\
             (v = PyNone \/ exists s, v = PyStr s)).
Proof.
  intros Hconf. repeat split.
  - destruct (required_field_value _ kvs "referred_table" T_str Hconf)
      as (v & Hv & Hadm); [cbn; tauto |].
    destruct v; try discriminate Hadm. eauto.
  - destruct (required_field_value _ kvs "constrained_columns" (T_List T_str) Hconf)
      as (v & Hv & Hadm); [cbn; tauto |].
    rewrite admits_list_str in Hadm. eauto.
  - destruct (required_field_value _ kvs "referred_columns" (T_List T_str) Hconf)
      as (v & Hv & Hadm); [cbn; tauto |].
    rewrite admits_list_str in Hadm. eauto.
  - destruct (required_field_value _ kvs "referred_schema" (T_Optional T_str) Hconf)
      as (v & Hv & Hadm); [cbn; tauto |].
    exists v. split; [exact Hv |]. destruct v; try discriminate Hadm; eauto.
Qed.

Lemma foreign_key_names_its_target_witness :
  exists t, lookup_key "referred_table" sample_foreign_key = Some (PyStr t).
Proof.
  apply (foreign_key_names_its_target sample_foreign_key). reflexivity.
Defined.

End ConstraintNames.
